(** * Mudhumeni field dashboard: the view state of [src/components/Map.tsx]

    A shallow embedding of the [Map] component: its React state cells, the
    event handlers that write them, and the part of the JSX that decides
    what is displayed.  JavaScript numbers are IEEE 754 binary64 values and
    are modelled by Rocq's primitive floats, so every handler below can be
    evaluated on concrete inputs.

    A handler does not mutate state: it calls React setters (and the map's
    [flyTo]).  We therefore model a handler as a function from the values its
    closure captured at render time to the list of calls it makes, in source
    order, and apply that list to the state afterwards. *)

From Stdlib Require Import Bool List String PeanoNat.
From Stdlib Require Import PrimFloat.
Import ListNotations.

(* Decimal literals denote the nearest binary64 value, as they do in JS. *)
Set Warnings "-inexact-float".

Local Open Scope string_scope.
Local Open Scope float_scope.

(** ** JavaScript numbers *)

Module JS.

Definition number := float.

(** [x > y] and [x >= y] on numbers; both are false when a side is NaN. *)
Definition gt (x y : number) : bool := PrimFloat.ltb y x.
Definition ge (x y : number) : bool := PrimFloat.leb y x.

(** [Math.sqrt] is the correctly rounded IEEE square root. *)
Definition Math_sqrt (x : number) : number := PrimFloat.sqrt x.

End JS.

(** ECMAScript leaves [Math.pow] "implementation-approximated" outside its
    special cases, so the development is parametric in it. *)
Class JSMath := { Math_pow : JS.number -> JS.number -> JS.number }.

(** A reference [Math.pow] for evaluating concrete traces.  [Map.tsx] only
    ever passes the exponent 2, for which the IEEE product is the correctly
    rounded power; the exponents 0 and 1 are exact as well, and any other
    exponent falls outside what this instance covers (NaN). *)
Definition pow_by_product (x y : JS.number) : JS.number :=
  if PrimFloat.eqb y 2 then x * x
  else if PrimFloat.eqb y 1 then x
  else if PrimFloat.eqb y 0 then 1
  else nan.

Definition ProductMath : JSMath := {| Math_pow := pow_by_product |}.

(** ** Data *)

(** [interface Coordinates] *)
Record Coordinates := { longitude : JS.number; latitude : JS.number }.

(** The style keys of [MAP_STYLES] and the value held by [mapStyle].  At run
    time the TypeScript union ['STREETS' | 'SATELLITE'] is a plain string. *)
Record StyleUrls := { light : string; dark : string }.

Definition MAP_STYLES (key : string) : option StyleUrls :=
  if String.eqb key "STREETS" then
    Some {| light := "mapbox://styles/mapbox/streets-v12";
            dark := "mapbox://styles/mapbox/dark-v11" |}
  else if String.eqb key "SATELLITE" then
    Some {| light := "mapbox://styles/mapbox/satellite-streets-v12";
            dark := "mapbox://styles/mapbox/satellite-streets-v12" |}
  else None.

Definition MOVEMENT_THRESHOLD : JS.number := 0.02.

(** A handle on the mounted map instance ([MapRef]). *)
Inductive MapRef := MapHandle (id : nat).

(** The argument of [flyTo]. *)
Record FlyToOptions := {
  center : JS.number * JS.number;
  fly_zoom : JS.number;
  pitch : JS.number;
  bearing : JS.number
}.

(** The [viewState] carried by a move event. *)
Record ViewState := {
  vs_longitude : JS.number;
  vs_latitude : JS.number;
  vs_zoom : JS.number
}.

Record MoveEvent := { viewState : ViewState }.

Record KeyboardEvent := { ctrlKey : bool; key : string }.

(** Modelled from the spec: [hooks/useCoordinates] is not among the sources.
    [Map.tsx] destructures [coordinates], [setCoordinates],
    [selectedLocation] and [setSelectedLocation] from it and
    [app/layout.tsx] wraps the page in its [CoordinatesProvider]; the spec
    lists the coordinate pair as plain view state.  The context is taken to
    be two state cells with ordinary setters. *)
Record CoordinatesContext := {
  ctx_coordinates : Coordinates;
  ctx_selectedLocation : option Coordinates
}.

(** The state of the component: the context values and its [useState] cells. *)
Record State := {
  context : CoordinatesContext;
  mapRef : option MapRef;
  loading : bool;
  zoom : JS.number;
  mapStyle : string;
  lastWeatherCoordinates : option Coordinates
}.

Definition coordinates (s : State) : Coordinates :=
  ctx_coordinates (context s).

Definition selectedLocation (s : State) : option Coordinates :=
  ctx_selectedLocation (context s).

(** The state of the first render.  [mapRef] starts as [{}], so
    [mapRef.current?.getZoom() || 0] is [0]; what the context holds at that
    point is up to its provider. *)
Definition initial_state (ctx : CoordinatesContext) : State :=
  {| context := ctx;
     mapRef := None;
     loading := true;
     zoom := 0;
     mapStyle := "STREETS";
     lastWeatherCoordinates := None |}.

(** ** Calls made by the handlers *)

Inductive Action :=
| SetCoordinates (c : Coordinates)
| SetSelectedLocation (l : option Coordinates)
| SetMapRef (m : MapRef)
| SetLoading (b : bool)
| SetZoom (z : JS.number)
| SetMapStyle (updater : string -> string)
| SetLastWeatherCoordinates (l : option Coordinates)
| FlyTo (m : MapRef) (o : FlyToOptions)
| PreventDefault.

Definition with_context (ctx : CoordinatesContext) (s : State) : State :=
  {| context := ctx; mapRef := mapRef s; loading := loading s;
     zoom := zoom s; mapStyle := mapStyle s;
     lastWeatherCoordinates := lastWeatherCoordinates s |}.

Definition apply_action (s : State) (a : Action) : State :=
  match a with
  | SetCoordinates c =>
      with_context {| ctx_coordinates := c;
                      ctx_selectedLocation := selectedLocation s |} s
  | SetSelectedLocation l =>
      with_context {| ctx_coordinates := coordinates s;
                      ctx_selectedLocation := l |} s
  | SetMapRef m =>
      {| context := context s; mapRef := Some m; loading := loading s;
         zoom := zoom s; mapStyle := mapStyle s;
         lastWeatherCoordinates := lastWeatherCoordinates s |}
  | SetLoading b =>
      {| context := context s; mapRef := mapRef s; loading := b;
         zoom := zoom s; mapStyle := mapStyle s;
         lastWeatherCoordinates := lastWeatherCoordinates s |}
  | SetZoom z =>
      {| context := context s; mapRef := mapRef s; loading := loading s;
         zoom := z; mapStyle := mapStyle s;
         lastWeatherCoordinates := lastWeatherCoordinates s |}
  | SetMapStyle updater =>
      {| context := context s; mapRef := mapRef s; loading := loading s;
         zoom := zoom s; mapStyle := updater (mapStyle s);
         lastWeatherCoordinates := lastWeatherCoordinates s |}
  | SetLastWeatherCoordinates l =>
      {| context := context s; mapRef := mapRef s; loading := loading s;
         zoom := zoom s; mapStyle := mapStyle s;
         lastWeatherCoordinates := l |}
  | FlyTo _ _ => s
  | PreventDefault => s
  end.

(** React applies the queued setter calls in the order they were made. *)
Definition run_actions (acts : list Action) (s : State) : State :=
  fold_left apply_action acts s.

(** Calls to [setLastWeatherCoordinates], the prop of [WeatherDisplay]. *)
Definition is_weather_write (a : Action) : bool :=
  match a with SetLastWeatherCoordinates _ => true | _ => false end.

Definition is_flyTo (a : Action) : bool :=
  match a with FlyTo _ _ => true | _ => false end.

(** [mapRef.current?.flyTo(o)]: a call only when the reference is set. *)
Definition flyTo_opt (r : option MapRef) (o : FlyToOptions) : list Action :=
  match r with
  | Some m => [FlyTo m o]
  | None => []
  end.

(** ** The handlers

    Each takes the state [s] of the render that created the closure. *)

(** [measuredRef]: [node && setMapRef({ current: node })]. *)
Definition measuredRef (node : option MapRef) : list Action :=
  match node with
  | Some m => [SetMapRef m]
  | None => []
  end.

(** [onLoad] of the map. *)
Definition onLoad : list Action := [SetLoading false].

(** [onClick] of the marker of the selected location. *)
Definition onMarkerClick : list Action := [SetSelectedLocation None].

(** The updater passed to [setMapStyle] by [onToggle]. *)
Definition toggleMapStyle (current : string) : string :=
  if String.eqb current "STREETS" then "SATELLITE" else "STREETS".

Definition onToggle : list Action := [SetMapStyle toggleMapStyle].

Definition updateCoordinates (s : State) (newCoordinates : Coordinates)
  : list Action :=
  [SetCoordinates newCoordinates]
  ++ flyTo_opt (mapRef s)
       {| center := (longitude newCoordinates, latitude newCoordinates);
          fly_zoom := 16;
          pitch := 60;
          bearing := -20 |}
  ++ [SetSelectedLocation (Some newCoordinates);
      SetLastWeatherCoordinates (Some newCoordinates)].

Definition handleSelectLocation (s : State) (lon lat : JS.number)
  : list Action :=
  let newLocation := {| longitude := lon; latitude := lat |} in
  [SetSelectedLocation (Some newLocation)]
  ++ updateCoordinates s newLocation
  ++ [SetZoom 14].

(** The view the reset shortcut flies to. *)
Definition default_coordinates : Coordinates :=
  {| longitude := -4.649779746122704; latitude := 17.08385049329921 |}.

Definition default_flyTo : FlyToOptions :=
  {| center := (-4.649779746122704, 17.08385049329921);
     fly_zoom := 2;
     pitch := 0;
     bearing := 0 |}.

(** [event.ctrlKey && event.key === 'q'] *)
Definition is_ctrl_q (event : KeyboardEvent) : bool :=
  ctrlKey event && String.eqb (key event) "q".

Definition handleKeyPress (s : State) (event : KeyboardEvent) : list Action :=
  if is_ctrl_q event then
    [PreventDefault]
    ++ flyTo_opt (mapRef s) default_flyTo
    ++ [SetCoordinates default_coordinates;
        SetZoom 2;
        SetSelectedLocation None;
        SetLastWeatherCoordinates None]
  else [].

Section Handlers.

Context {M : JSMath}.

(** The spec's predicate: the Euclidean length of a coordinate delta. *)
Definition euclidean (dlon dlat : JS.number) : JS.number :=
  JS.Math_sqrt (Math_pow dlon 2 + Math_pow dlat 2).

Definition exceeds_threshold (new old : Coordinates) : bool :=
  JS.gt (euclidean (longitude new - longitude old)
                   (latitude new - latitude old))
        MOVEMENT_THRESHOLD.

Definition handleMove (s : State) (event : MoveEvent) : list Action :=
  let lon := vs_longitude (viewState event) in
  let lat := vs_latitude (viewState event) in
  let zoom := vs_zoom (viewState event) in
  [SetCoordinates {| longitude := lon; latitude := lat |}; SetZoom zoom]
  ++
  match lastWeatherCoordinates s with
  | Some last =>
      let distanceMoved :=
        JS.Math_sqrt (Math_pow (lon - longitude last) 2 +
                      Math_pow (lat - latitude last) 2) in
      if JS.gt distanceMoved MOVEMENT_THRESHOLD then
        [SetLastWeatherCoordinates
           (Some {| longitude := lon; latitude := lat |})]
      else []
  | None =>
      [SetLastWeatherCoordinates
         (Some {| longitude := lon; latitude := lat |})]
  end.

(** What the browser, the map and the child widgets can send. *)
Inductive Event :=
| Move (event : MoveEvent)
| Load
| RefCallback (node : option MapRef)
| MarkerClick
| ToggleStyle
| SelectLocation (lon lat : JS.number)
| CurrentLocation (c : Coordinates)
| KeyDown (event : KeyboardEvent).

Definition handler (s : State) (e : Event) : list Action :=
  match e with
  | Move event => handleMove s event
  | Load => onLoad
  | RefCallback node => measuredRef node
  | MarkerClick => onMarkerClick
  | ToggleStyle => onToggle
  | SelectLocation lon lat => handleSelectLocation s lon lat
  | CurrentLocation c => updateCoordinates s c
  | KeyDown event => handleKeyPress s event
  end.

(** One event, handled by the closures of the latest render. *)
Definition step (s : State) (e : Event) : State :=
  run_actions (handler s e) s.

Definition run_events (es : list Event) (s : State) : State :=
  fold_left step es s.

End Handlers.

(** ** What is rendered *)

Record View := {
  view_mapStyle : option string;
  view_loadingOverlay : bool;
  view_marker : option Coordinates;
  view_buildingsLayer : bool;
  coordinatesDisplay : JS.number * JS.number * JS.number;
  weatherDisplay : option Coordinates;
  view_styleButton : string
}.

(** [resolvedTheme === 'dark' ? 'dark' : 'light'] *)
Definition themed (resolvedTheme : option string) (u : StyleUrls) : string :=
  match resolvedTheme with
  | Some t => if String.eqb t "dark" then dark u else light u
  | None => light u
  end.

Definition render (resolvedTheme : option string) (s : State) : View :=
  {| view_mapStyle := option_map (themed resolvedTheme) (MAP_STYLES (mapStyle s));
     view_loadingOverlay := loading s;
     view_marker := selectedLocation s;
     view_buildingsLayer := String.eqb (mapStyle s) "STREETS";
     coordinatesDisplay :=
       (longitude (coordinates s), latitude (coordinates s), zoom s);
     weatherDisplay :=
       if JS.ge (zoom s) 14 then lastWeatherCoordinates s else None;
     view_styleButton := mapStyle s |}.

(** ** Vocabulary of the specification *)

(** The coordinates a move event reports. *)
Definition event_coordinates (event : MoveEvent) : Coordinates :=
  {| longitude := vs_longitude (viewState event);
     latitude := vs_latitude (viewState event) |}.



(** The weather panel shows the weather of the viewport's coordinates. *)
Definition weather_shows_viewport (theme : option string) (s : State) : Prop :=
  forall c, weatherDisplay (render theme s) = Some c -> c = coordinates s.

(** The weather coordinate is the viewport's or lags it by at most the
    threshold. *)
Definition weather_near_viewport {M : JSMath} (s : State) : Prop :=
  forall c,
    lastWeatherCoordinates s = Some c ->
    c = coordinates s \/ exceeds_threshold (coordinates s) c = false.

(** The reset shortcut asks the map for a flight with pitch 0 and bearing 0. *)
Definition reset_requests_flight (s : State) (k : KeyboardEvent) : Prop :=
  exists m o,
    In (FlyTo m o) (handleKeyPress s k) /\ pitch o = 0 /\ bearing o = 0.

(** ** Concrete inputs used to exercise the model *)

Definition origin : Coordinates := {| longitude := 0; latitude := 0 |}.

(** 2^-7 degrees east of [origin]: every quantity of the distance check is
    exact, and the distance 0.0078125 is below the threshold. *)
Definition nearby : Coordinates := {| longitude := 0.0078125; latitude := 0 |}.

(** 2^-5 degrees east of [origin]: distance 0.03125, above the threshold. *)
Definition faraway : Coordinates := {| longitude := 0.03125; latitude := 0 |}.

(** Exactly the threshold east of [origin]. *)
Definition on_threshold : Coordinates := {| longitude := 0.02; latitude := 0 |}.

Definition move_to (c : Coordinates) (z : JS.number) : MoveEvent :=
  {| viewState := {| vs_longitude := longitude c;
                     vs_latitude := latitude c;
                     vs_zoom := z |} |}.

Definition ctx0 : CoordinatesContext :=
  {| ctx_coordinates := origin; ctx_selectedLocation := None |}.

Definition ctrl_q : KeyboardEvent := {| ctrlKey := true; key := "q" |}.

(** The map is mounted and loaded and has reported a first position at zoom
    15, so the weather panel is showing [origin]. *)
Definition at_origin : State :=
  run_events (M := ProductMath)
    [RefCallback (Some (MapHandle 0)); Load; Move (move_to origin 15)]
    (initial_state ctx0).

(** The trace behind [at_origin] followed by a pan of 2^-7 degrees. *)
Definition small_pan : list Event :=
  [RefCallback (Some (MapHandle 0)); Load;
   Move (move_to origin 15); Move (move_to nearby 15)].

Definition after_small_pan : State :=
  run_events (M := ProductMath) small_pan (initial_state ctx0).

(** ** Vocabulary for traces of events *)

Definition is_load (e : Event) : bool :=
  match e with Load => true | _ => false end.

Definition is_toggle (e : Event) : bool :=
  match e with ToggleStyle => true | _ => false end.

(** The events whose handlers touch neither the coordinates, the zoom nor
    the weather coordinate. *)
Definition keeps_position (e : Event) : bool :=
  match e with
  | Load | RefCallback _ | MarkerClick | ToggleStyle => true
  | KeyDown k => negb (is_ctrl_q k)
  | Move _ | SelectLocation _ _ | CurrentLocation _ => false
  end.

(** The last non-null node handed to the ref callback, [r] if there is
    none. *)
Definition last_mounted (es : list Event) (r : option MapRef)
  : option MapRef :=
  fold_left (fun r e => match e with
                        | RefCallback (Some m) => Some m
                        | _ => r
                        end) es r.

Definition is_dark (resolvedTheme : option string) : bool :=
  match resolvedTheme with
  | Some t => String.eqb t "dark"
  | None => false
  end.

(** The two flights the component can ask for. *)
Definition location_flyTo (c : Coordinates) : FlyToOptions :=
  {| center := (longitude c, latitude c);
     fly_zoom := 16;
     pitch := 60;
     bearing := -20 |}.

(** Ctrl+Shift+Q: the browser reports the key as an upper-case Q. *)
Definition ctrl_shift_q : KeyboardEvent := {| ctrlKey := true; key := "Q" |}.

(** ** Renders and closures

    The handlers in use are the closures of the last render: [handleMove]
    is a [useCallback] over [lastWeatherCoordinates], the key listener is
    attached by an effect over [mapRef], the others are rebuilt at every
    render.  Several events can be handled before React renders again; they
    then all see the [rendered] state while their setter calls accumulate
    in the [pending] one. *)

Record Component := { rendered : State; pending : State }.

Inductive Tick :=
| Dispatch (e : Event)
| Rerender.

Definition tick {M : JSMath} (c : Component) (t : Tick) : Component :=
  match t with
  | Dispatch e =>
      {| rendered := rendered c;
         pending := run_actions (handler (rendered c) e) (pending c) |}
  | Rerender => {| rendered := pending c; pending := pending c |}
  end.

Definition run_ticks {M : JSMath} (ts : list Tick) (c : Component)
  : Component :=
  fold_left tick ts c.

Definition mount (ctx : CoordinatesContext) : Component :=
  {| rendered := initial_state ctx; pending := initial_state ctx |}.

(** The closure that handles [e] holds the current weather coordinate; only
    [handleMove] reads it. *)
Definition weather_closure_fresh (e : Event) (c : Component) : Prop :=
  match e with
  | Move _ =>
      lastWeatherCoordinates (rendered c) = lastWeatherCoordinates (pending c)
  | _ => True
  end.

(** Along [ts], every move is handled by a closure that holds the current
    weather coordinate: a render has happened since it last changed. *)
Fixpoint moves_fresh {M : JSMath} (ts : list Tick) (c : Component) : Prop :=
  match ts with
  | [] => True
  | t :: ts' =>
      match t with
      | Dispatch e => weather_closure_fresh e c
      | Rerender => True
      end /\ moves_fresh ts' (tick c t)
  end.

(** [small_pan] with a render after every event. *)
Definition small_pan_rendered : list Tick :=
  [Dispatch (RefCallback (Some (MapHandle 0))); Rerender;
   Dispatch Load; Rerender;
   Dispatch (Move (move_to origin 15)); Rerender;
   Dispatch (Move (move_to nearby 15)); Rerender].

(** The map at [origin], then a pan to [faraway] and back with no render in
    between. *)
Definition batched_pan : list Tick :=
  [Dispatch (RefCallback (Some (MapHandle 0))); Rerender;
   Dispatch Load; Rerender;
   Dispatch (Move (move_to origin 15)); Rerender;
   Dispatch (Move (move_to faraway 15));
   Dispatch (Move (move_to origin 15)); Rerender].

(** * Properties *)

(** ** Running lists of calls and events *)

(** A property kept by every event holds along every trace. *)
Lemma run_events_invariant {M : JSMath} (P : State -> Prop) :
  (forall s e, P s -> P (step s e)) ->
  forall es s, P s -> P (run_events es s).
Proof.
  intros Hstep es.
  induction es as [| e es IH]; intros s Hs.
  - exact Hs.
  - cbn. apply IH. apply Hstep. exact Hs.
Qed.

(** The calls a move makes, by the weather coordinate its closure saw. *)
Lemma handleMove_first {M : JSMath} (s : State) (event : MoveEvent) :
  lastWeatherCoordinates s = None ->
  handleMove s event =
  [SetCoordinates (event_coordinates event);
   SetZoom (vs_zoom (viewState event));
   SetLastWeatherCoordinates (Some (event_coordinates event))].
Proof. intros Hnone. unfold handleMove. rewrite Hnone. reflexivity. Qed.

Lemma handleMove_next {M : JSMath} (s : State) (event : MoveEvent)
      (last : Coordinates) :
  lastWeatherCoordinates s = Some last ->
  handleMove s event =
  ([SetCoordinates (event_coordinates event);
    SetZoom (vs_zoom (viewState event))]
   ++ (if exceeds_threshold (event_coordinates event) last
       then [SetLastWeatherCoordinates (Some (event_coordinates event))]
       else []))%list.
Proof. intros Hsome. unfold handleMove. rewrite Hsome. reflexivity. Qed.

(** The code's constant is the spec's 0.02. *)
Lemma exceeds_threshold_spec {M : JSMath} (new old : Coordinates) :
  exceeds_threshold new old =
  JS.gt (JS.Math_sqrt
           (Math_pow (longitude new - longitude old) 2 +
            Math_pow (latitude new - latitude old) 2))
        0.02.
Proof. reflexivity. Qed.

(** ** The movement threshold *)

(** C1. A move handled with a previous weather coordinate [last] calls
    [setLastWeatherCoordinates] exactly when sqrt(dlon^2 + dlat^2) > 0.02,
    and then with the event's coordinates; at or below 0.02 (and for a NaN
    distance) the weather coordinate keeps its value. *)
Theorem handleMove_refetch_iff_threshold {M : JSMath}
        (s : State) (event : MoveEvent) (last : Coordinates) :
  lastWeatherCoordinates s = Some last ->
  let dlon := vs_longitude (viewState event) - longitude last in
  let dlat := vs_latitude (viewState event) - latitude last in
  let far := JS.gt (JS.Math_sqrt (Math_pow dlon 2 + Math_pow dlat 2)) 0.02 in
  (existsb is_weather_write (handleMove s event) = true <-> far = true) /\
  (far = true ->
   In (SetLastWeatherCoordinates (Some (event_coordinates event)))
      (handleMove s event) /\
   lastWeatherCoordinates (step s (Move event))
   = Some (event_coordinates event)) /\
  (far = false ->
   lastWeatherCoordinates (step s (Move event)) = lastWeatherCoordinates s).
Proof.
  intros Hlast dlon dlat far.
  assert (Hfar : far = exceeds_threshold (event_coordinates event) last)
    by reflexivity.
  unfold step, handler.
  rewrite (handleMove_next s event last Hlast), <- Hfar.
  destruct far; cbn.
  - split; [tauto | split].
    + intros _. split; [right; right; left |]; reflexivity.
    + discriminate.
  - split; [split; discriminate | split].
    + discriminate.
    + reflexivity.
Qed.

(** C7. A move handled while the weather coordinate is null sets it to the
    event's coordinates; the calls made do not depend on any distance. *)
Theorem handleMove_first_sets_weather {M : JSMath}
        (s : State) (event : MoveEvent) :
  lastWeatherCoordinates s = None ->
  handleMove s event =
  [SetCoordinates (event_coordinates event);
   SetZoom (vs_zoom (viewState event));
   SetLastWeatherCoordinates (Some (event_coordinates event))] /\
  lastWeatherCoordinates (step s (Move event))
  = Some (event_coordinates event).
Proof.
  intros Hnone.
  pose proof (handleMove_first s event Hnone) as Hcalls.
  split; [exact Hcalls |].
  unfold step, handler. rewrite Hcalls. reflexivity.
Qed.

(** ** What a move writes and what it leaves alone *)

(** The weather-coordinate calls a move can end with. *)
Lemma handleMove_shape {M : JSMath} (s0 : State) (event : MoveEvent) :
  exists tail,
    handleMove s0 event =
    ([SetCoordinates (event_coordinates event);
      SetZoom (vs_zoom (viewState event))] ++ tail)%list /\
    (tail = [] \/
     tail = [SetLastWeatherCoordinates (Some (event_coordinates event))]).
Proof.
  destruct (lastWeatherCoordinates s0) as [last |] eqn:Hlw.
  - rewrite (handleMove_next s0 event last Hlw).
    destruct (exceeds_threshold (event_coordinates event) last);
      eexists; split; eauto.
  - rewrite (handleMove_first s0 event Hlw).
    eexists; split; [reflexivity | auto].
Qed.

(** C5. Whatever state [s0] the handler's closure captured and whatever the
    current state [s], a move sets the coordinates and the zoom to the
    event's, and that is what [CoordinatesDisplay] is given. *)
Theorem handleMove_sets_display {M : JSMath}
        (s0 s : State) (event : MoveEvent) (theme : option string) :
  let s' := run_actions (handleMove s0 event) s in
  coordinates s' = event_coordinates event /\
  zoom s' = vs_zoom (viewState event) /\
  coordinatesDisplay (render theme s')
  = (vs_longitude (viewState event),
     vs_latitude (viewState event),
     vs_zoom (viewState event)).
Proof.
  destruct (handleMove_shape s0 event) as (tail & Hcalls & Htail).
  cbv zeta. rewrite Hcalls.
  destruct Htail as [-> | ->]; repeat split.
Qed.

(** C8. A move leaves [selectedLocation], [mapStyle] and the loading flag
    (and the map reference) as they were, and asks nothing of the map. *)
Theorem handleMove_frame {M : JSMath}
        (s0 s : State) (event : MoveEvent) :
  let s' := run_actions (handleMove s0 event) s in
  selectedLocation s' = selectedLocation s /\
  mapStyle s' = mapStyle s /\
  loading s' = loading s /\
  mapRef s' = mapRef s /\
  existsb is_flyTo (handleMove s0 event) = false.
Proof.
  destruct (handleMove_shape s0 event) as (tail & Hcalls & Htail).
  cbv zeta. rewrite Hcalls.
  destruct Htail as [-> | ->]; repeat split.
Qed.

(** ** Who writes the weather coordinate *)

(** The weather coordinate after one event, for every event. *)
Lemma weather_after_event {M : JSMath} (s : State) (e : Event) :
  lastWeatherCoordinates (step s e) =
  match e with
  | Move event =>
      match lastWeatherCoordinates s with
      | Some last =>
          if exceeds_threshold (event_coordinates event) last
          then Some (event_coordinates event)
          else Some last
      | None => Some (event_coordinates event)
      end
  | SelectLocation lon lat => Some {| longitude := lon; latitude := lat |}
  | CurrentLocation c => Some c
  | KeyDown k =>
      if ctrlKey k && String.eqb (key k) "q" then None
      else lastWeatherCoordinates s
  | Load | RefCallback _ | MarkerClick | ToggleStyle =>
      lastWeatherCoordinates s
  end.
Proof.
  unfold step.
  destruct e as [event | | node | | | lon lat | c | k]; cbn [handler].
  - destruct (lastWeatherCoordinates s) as [last |] eqn:Hlw.
    + rewrite (handleMove_next s event last Hlw).
      destruct (exceeds_threshold (event_coordinates event) last); cbn;
        [reflexivity | exact Hlw].
    + rewrite (handleMove_first s event Hlw). reflexivity.
  - reflexivity.
  - destruct node; reflexivity.
  - reflexivity.
  - reflexivity.
  - unfold handleSelectLocation, updateCoordinates.
    destruct (mapRef s); reflexivity.
  - unfold updateCoordinates. destruct (mapRef s); reflexivity.
  - unfold handleKeyPress, is_ctrl_q.
    destruct (ctrlKey k && String.eqb (key k) "q").
    + destruct (mapRef s); reflexivity.
    + reflexivity.
Qed.


(** The coordinates after one event. *)
Lemma coordinates_after_event {M : JSMath} (s : State) (e : Event) :
  coordinates (step s e) =
  match e with
  | Move event => event_coordinates event
  | SelectLocation lon lat => {| longitude := lon; latitude := lat |}
  | CurrentLocation c => c
  | KeyDown k => if is_ctrl_q k then default_coordinates else coordinates s
  | Load | RefCallback _ | MarkerClick | ToggleStyle => coordinates s
  end.
Proof.
  unfold step.
  destruct e as [event | | node | | | lon lat | c | k]; cbn [handler].
  - destruct (handleMove_shape s event) as (tail & -> & [-> | ->]);
      reflexivity.
  - reflexivity.
  - destruct node; reflexivity.
  - reflexivity.
  - reflexivity.
  - unfold handleSelectLocation, updateCoordinates.
    destruct (mapRef s); reflexivity.
  - unfold updateCoordinates. destruct (mapRef s); reflexivity.
  - unfold handleKeyPress. destruct (is_ctrl_q k).
    + destruct (mapRef s); reflexivity.
    + reflexivity.
Qed.

(** ** The weather panel and the viewport *)

Lemma initial_weather_near_viewport {M : JSMath} (ctx : CoordinatesContext) :
  weather_near_viewport (initial_state ctx).
Proof. intros c Hc. discriminate Hc. Qed.

Lemma step_weather_near_viewport {M : JSMath} (s : State) (e : Event) :
  weather_near_viewport s -> weather_near_viewport (step s e).
Proof.
  unfold weather_near_viewport.
  intros Hinv c.
  rewrite weather_after_event, coordinates_after_event.
  destruct e as [event | | node | | | lon lat | c' | k]; try apply Hinv.
  - destruct (lastWeatherCoordinates s) as [last |].
    + destruct (exceeds_threshold (event_coordinates event) last) eqn:Hfar;
        intros [= <-]; auto.
    + intros [= <-]. auto.
  - intros [= <-]. auto.
  - intros [= <-]. auto.
  - unfold is_ctrl_q.
    destruct (ctrlKey k && String.eqb (key k) "q");
      [discriminate | apply Hinv].
Qed.

(** A handler whose closure is stale only in fields it does not read acts
    as the handler of the current state. *)
Lemma dispatch_as_step {M : JSMath} (c : Component) (e : Event) :
  weather_closure_fresh e c ->
  pending (tick c (Dispatch e)) = step (pending c) e.
Proof.
  intros Hfresh.
  unfold step; cbn [tick pending].
  destruct e as [event | | node | | | lon lat | p | k]; cbn [handler].
  - cbn in Hfresh. unfold handleMove. rewrite Hfresh. reflexivity.
  - reflexivity.
  - reflexivity.
  - reflexivity.
  - reflexivity.
  - unfold handleSelectLocation, updateCoordinates.
    destruct (mapRef (rendered c)), (mapRef (pending c)); reflexivity.
  - unfold updateCoordinates.
    destruct (mapRef (rendered c)), (mapRef (pending c)); reflexivity.
  - unfold handleKeyPress. destruct (is_ctrl_q k); [| reflexivity].
    destruct (mapRef (rendered c)), (mapRef (pending c)); reflexivity.
Qed.

Lemma run_ticks_near_viewport {M : JSMath} (ts : list Tick) (c : Component) :
  moves_fresh ts c ->
  weather_near_viewport (rendered c) ->
  weather_near_viewport (pending c) ->
  weather_near_viewport (rendered (run_ticks ts c)).
Proof.
  revert c.
  induction ts as [| t ts IH]; intros c Hfresh Hrendered Hpending.
  - exact Hrendered.
  - destruct Hfresh as [Hhere Hrest].
    cbn [run_ticks fold_left].
    change (fold_left tick ts (tick c t)) with (run_ticks ts (tick c t)).
    apply IH; [exact Hrest | |].
    + destruct t as [e |]; [exact Hrendered | exact Hpending].
    + destruct t as [e |]; [| exact Hpending].
      rewrite (dispatch_as_step c e Hhere).
      apply step_weather_near_viewport. exact Hpending.
Qed.

(** C3 (as amended). The weather panel is rendered for
    [lastWeatherCoordinates].  After any interleaving of events and renders
    in which every move was handled by a closure holding the current
    weather coordinate, that coordinate is either the [coordinates] of the
    same render (what the most recent move, search selection or
    current-location update stored) or one whose computed distance from
    them does not exceed 0.02. *)
Theorem weather_panel_near_viewport {M : JSMath}
        (ctx : CoordinatesContext) (ts : list Tick)
        (theme : option string) (c : Coordinates) :
  let s := rendered (run_ticks ts (mount ctx)) in
  moves_fresh ts (mount ctx) ->
  weatherDisplay (render theme s) = Some c ->
  lastWeatherCoordinates s = Some c /\
  JS.ge (zoom s) 14 = true /\
  (c = coordinates s \/
   JS.gt (JS.Math_sqrt
            (Math_pow (longitude (coordinates s) - longitude c) 2 +
             Math_pow (latitude (coordinates s) - latitude c) 2))
         0.02 = false).
Proof.
  intros s Hfresh Hshown.
  assert (Hinv : weather_near_viewport s).
  { apply run_ticks_near_viewport.
    - exact Hfresh.
    - apply initial_weather_near_viewport.
    - apply initial_weather_near_viewport. }
  change (weatherDisplay (render theme s))
    with (if JS.ge (zoom s) 14 then lastWeatherCoordinates s else None)
    in Hshown.
  destruct (JS.ge (zoom s) 14) eqn:Hzoom; [| discriminate Hshown].
  split; [exact Hshown | split; [reflexivity |]].
  rewrite <- exceeds_threshold_spec.
  apply Hinv. exact Hshown.
Qed.

(** ** The reset shortcut *)

(** C4 (as amended). Ctrl+Q, from every state: the coordinates become the
    default pair, the zoom 2, [selectedLocation] and the weather coordinate
    null; the flight to the default view (zoom 2, pitch 0, bearing 0) is
    requested of the map the reference holds, and of nothing when the
    reference is not set yet. *)
Theorem ctrl_q_resets_view {M : JSMath} (s : State) (k : KeyboardEvent) :
  ctrlKey k = true ->
  key k = "q" ->
  let s' := step s (KeyDown k) in
  coordinates s' =
    {| longitude := -4.649779746122704; latitude := 17.08385049329921 |} /\
  zoom s' = 2 /\
  selectedLocation s' = None /\
  lastWeatherCoordinates s' = None /\
  match mapRef s with
  | Some m =>
      In (FlyTo m {| center := (-4.649779746122704, 17.08385049329921);
                     fly_zoom := 2; pitch := 0; bearing := 0 |})
         (handleKeyPress s k)
  | None => existsb is_flyTo (handleKeyPress s k) = false
  end.
Proof.
  intros Hctrl Hkey.
  unfold step, handler, handleKeyPress, is_ctrl_q.
  rewrite Hctrl, Hkey. cbn [andb String.eqb Ascii.eqb Bool.eqb].
  destruct (mapRef s) as [m |]; cbn.
  - repeat split. right. left. reflexivity.
  - repeat split.
Qed.

(** ** The map style *)

Lemma toggleMapStyle_range (current : string) :
  toggleMapStyle current = "STREETS" \/ toggleMapStyle current = "SATELLITE".
Proof.
  unfold toggleMapStyle.
  destruct (String.eqb current "STREETS"); [right | left]; reflexivity.
Qed.

Lemma mapStyle_after_event {M : JSMath} (s : State) (e : Event) :
  mapStyle (step s e) =
  match e with
  | ToggleStyle => toggleMapStyle (mapStyle s)
  | _ => mapStyle s
  end.
Proof.
  unfold step.
  destruct e as [event | | node | | | lon lat | c | k]; cbn [handler].
  - destruct (handleMove_shape s event) as (tail & -> & [-> | ->]);
      reflexivity.
  - reflexivity.
  - destruct node; reflexivity.
  - reflexivity.
  - reflexivity.
  - unfold handleSelectLocation, updateCoordinates.
    destruct (mapRef s); reflexivity.
  - unfold updateCoordinates. destruct (mapRef s); reflexivity.
  - unfold handleKeyPress. destruct (is_ctrl_q k).
    + destruct (mapRef s); reflexivity.
    + reflexivity.
Qed.

Lemma mapStyle_reachable {M : JSMath}
      (ctx : CoordinatesContext) (es : list Event) :
  mapStyle (run_events es (initial_state ctx)) = "STREETS" \/
  mapStyle (run_events es (initial_state ctx)) = "SATELLITE".
Proof.
  apply (run_events_invariant
           (fun s => mapStyle s = "STREETS" \/ mapStyle s = "SATELLITE")).
  - intros s e Hs. rewrite mapStyle_after_event.
    destruct e; try exact Hs. apply toggleMapStyle_range.
  - left. reflexivity.
Qed.

(** C6. The style is STREETS at the first render; the style-toggle
    operation replaces the style by its toggle, whatever state its closure
    captured, and the toggle swaps STREETS and SATELLITE; after any sequence
    of events the style is one of the two. *)
Theorem mapStyle_streets_or_satellite {M : JSMath}
        (ctx : CoordinatesContext) (es : list Event) (s0 s : State) :
  mapStyle (initial_state ctx) = "STREETS" /\
  mapStyle (step s ToggleStyle) = toggleMapStyle (mapStyle s) /\
  mapStyle (run_actions (handler s0 ToggleStyle) s)
  = toggleMapStyle (mapStyle s) /\
  toggleMapStyle "STREETS" = "SATELLITE" /\
  toggleMapStyle "SATELLITE" = "STREETS" /\
  (mapStyle s = "STREETS" -> mapStyle (step s ToggleStyle) = "SATELLITE") /\
  (mapStyle s = "SATELLITE" -> mapStyle (step s ToggleStyle) = "STREETS") /\
  (mapStyle (run_events es (initial_state ctx)) = "STREETS" \/
   mapStyle (run_events es (initial_state ctx)) = "SATELLITE").
Proof.
  assert (Hstep : mapStyle (step s ToggleStyle) = toggleMapStyle (mapStyle s))
    by reflexivity.
  repeat match goal with |- _ /\ _ => split end; try reflexivity.
  - intros Hstreets. rewrite Hstep, Hstreets. reflexivity.
  - intros Hsatellite. rewrite Hstep, Hsatellite. reflexivity.
  - apply mapStyle_reachable.
Qed.

(** Witness of C6: the toggle on the STREETS state [at_origin]. *)
Lemma mapStyle_streets_or_satellite_witness :
  mapStyle at_origin = "STREETS" /\
  mapStyle (step (M := ProductMath) at_origin ToggleStyle) = "SATELLITE".
Proof.
  split.
  - reflexivity.
  - apply (@mapStyle_streets_or_satellite ProductMath ctx0 []
             at_origin at_origin).
    reflexivity.
Defined.

(** C9. On STREETS and on SATELLITE, toggling twice gives the style back,
    as a function and as two toggle events on a state. *)
Theorem toggleMapStyle_involutive {M : JSMath} (s : State) (style : string) :
  style = "STREETS" \/ style = "SATELLITE" ->
  toggleMapStyle (toggleMapStyle style) = style /\
  (mapStyle s = style ->
   mapStyle (step (step s ToggleStyle) ToggleStyle) = style).
Proof.
  intros Hstyle.
  assert (Htwice : toggleMapStyle (toggleMapStyle style) = style)
    by (destruct Hstyle as [-> | ->]; reflexivity).
  split; [exact Htwice |].
  intros <-. rewrite !mapStyle_after_event. exact Htwice.
Qed.

(** ** The model at concrete inputs *)

(** Two positions differ when zero is below the longitude of one only. *)
Lemma nearby_not_origin : nearby <> origin.
Proof.
  intros Heq.
  apply (f_equal (fun c => PrimFloat.ltb 0 (longitude c))) in Heq.
  vm_compute in Heq. discriminate Heq.
Qed.

(** A move of 0.0078125 degrees keeps the weather coordinate, one of 0.03125
    degrees replaces it, and one of exactly 0.02 degrees keeps it. *)
Example move_nearby_keeps_weather :
  lastWeatherCoordinates
    (step (M := ProductMath) at_origin (Move (move_to nearby 15)))
  = Some origin.
Proof. reflexivity. Qed.

Example move_faraway_replaces_weather :
  lastWeatherCoordinates
    (step (M := ProductMath) at_origin (Move (move_to faraway 15)))
  = Some faraway.
Proof. reflexivity. Qed.

Example move_on_threshold_keeps_weather :
  euclidean (M := ProductMath) 0.02 0 = 0.02 /\
  lastWeatherCoordinates
    (step (M := ProductMath) at_origin (Move (move_to on_threshold 15)))
  = Some origin.
Proof. split; reflexivity. Qed.

(** Witness of C1: a move from [origin] to [nearby]. *)
Lemma handleMove_refetch_iff_threshold_witness :
  lastWeatherCoordinates at_origin = Some origin /\
  lastWeatherCoordinates
    (step (M := ProductMath) at_origin (Move (move_to nearby 15)))
  = lastWeatherCoordinates at_origin.
Proof.
  split.
  - reflexivity.
  - apply (@handleMove_refetch_iff_threshold ProductMath
             at_origin (move_to nearby 15) origin).
    + reflexivity.
    + reflexivity.
Defined.

(** Witness of C7: the first move after the first render. *)
Lemma handleMove_first_sets_weather_witness :
  lastWeatherCoordinates (initial_state ctx0) = None /\
  lastWeatherCoordinates
    (step (M := ProductMath) (initial_state ctx0) (Move (move_to faraway 3)))
  = Some faraway.
Proof.
  split.
  - reflexivity.
  - apply (@handleMove_first_sets_weather ProductMath
             (initial_state ctx0) (move_to faraway 3)).
    reflexivity.
Defined.



(** Counterexample to C3 as stated: after a pan of 0.0078125 degrees at
    zoom 15 the panel still shows [origin] while the viewport is at
    [nearby]. *)
Lemma weather_panel_lags_viewport :
  weatherDisplay (render None after_small_pan) = Some origin /\
  coordinates after_small_pan = nearby /\
  ~ weather_shows_viewport None after_small_pan.
Proof.
  split; [reflexivity | split; [reflexivity |]].
  intros Hshows.
  specialize (Hshows origin eq_refl).
  apply nearby_not_origin. symmetry. exact Hshows.
Qed.

(** Witness of C3: the same pan, with a render after every event. *)
Lemma weather_panel_near_viewport_witness :
  moves_fresh (M := ProductMath) small_pan_rendered (mount ctx0) /\
  weatherDisplay
    (render None
       (rendered (run_ticks (M := ProductMath) small_pan_rendered
                    (mount ctx0))))
  = Some origin /\
  JS.gt (JS.Math_sqrt
           (pow_by_product (longitude nearby - longitude origin) 2 +
            pow_by_product (latitude nearby - latitude origin) 2))
        0.02 = false.
Proof.
  assert (Hfresh : moves_fresh (M := ProductMath) small_pan_rendered
                     (mount ctx0))
    by (cbn; repeat split).
  split; [exact Hfresh | split; [reflexivity |]].
  destruct (@weather_panel_near_viewport ProductMath ctx0 small_pan_rendered
              None origin Hfresh eq_refl) as (_ & _ & [Hsame | Hnear]).
  - reflexivity.
  - exact Hnear.
Defined.

(** Two moves handled on one closure: the second is compared with the
    weather coordinate of the render, not with the one the first just
    stored, and the panel ends up 0.03125 degrees from the viewport. *)
Example batched_moves_outrun_threshold :
  ~ moves_fresh (M := ProductMath) batched_pan (mount ctx0) /\
  weatherDisplay
    (render None
       (rendered (run_ticks (M := ProductMath) batched_pan (mount ctx0))))
  = Some faraway /\
  coordinates (rendered (run_ticks (M := ProductMath) batched_pan
                           (mount ctx0)))
  = origin /\
  exceeds_threshold (M := ProductMath) origin faraway = true.
Proof.
  split; [| repeat split].
  intros Hfresh. cbn in Hfresh.
  destruct Hfresh as (_ & _ & _ & _ & _ & _ & _ & Hstale & _).
  apply (f_equal (fun o => match o with
                           | Some p => PrimFloat.ltb 0 (longitude p)
                           | None => false
                           end)) in Hstale.
  vm_compute in Hstale. discriminate Hstale.
Qed.

(** Counterexample to C4 as stated: before the map reference is set the
    shortcut is already live, and pressing it requests nothing of the map. *)
Lemma ctrl_q_before_mount_requests_nothing :
  ctrlKey ctrl_q = true /\ key ctrl_q = "q" /\
  ~ reset_requests_flight (initial_state ctx0) ctrl_q.
Proof.
  split; [reflexivity | split; [reflexivity |]].
  intros (m & o & Hin & _).
  cbn in Hin.
  repeat (destruct Hin as [Hin | Hin]; [discriminate Hin |]).
  exact Hin.
Qed.

(** Witness of C4: the shortcut pressed on a mounted map. *)
Lemma ctrl_q_resets_view_witness :
  ctrlKey ctrl_q = true /\ key ctrl_q = "q" /\
  lastWeatherCoordinates (step (M := ProductMath) at_origin (KeyDown ctrl_q))
  = None.
Proof.
  split; [reflexivity | split; [reflexivity |]].
  apply (@ctrl_q_resets_view ProductMath at_origin ctrl_q);
    reflexivity.
Defined.

(** Witness of C9: SATELLITE, on the state after one toggle. *)
Lemma toggleMapStyle_involutive_witness :
  ("SATELLITE" = "STREETS" \/ "SATELLITE" = "SATELLITE") /\
  toggleMapStyle (toggleMapStyle "SATELLITE") = "SATELLITE".
Proof.
  split.
  - right. reflexivity.
  - apply (proj1 (@toggleMapStyle_involutive ProductMath
                    (step (M := ProductMath) at_origin ToggleStyle)
                    "SATELLITE" (or_intror eq_refl))).
Defined.

(** Outside the two style names the toggle is not an involution. *)
Example toggleMapStyle_twice_other :
  toggleMapStyle (toggleMapStyle "OUTDOORS") = "SATELLITE".
Proof. reflexivity. Qed.

(** In every reachable state the style has an entry in [MAP_STYLES]. *)
Lemma render_style_defined {M : JSMath}
      (ctx : CoordinatesContext) (es : list Event) (theme : option string) :
  view_mapStyle (render theme (run_events es (initial_state ctx))) <> None.
Proof.
  unfold render; cbn [view_mapStyle].
  destruct (mapStyle_reachable ctx es) as [-> | ->]; discriminate.
Qed.

(** * Beyond the threshold: the other handlers *)

(** The state after one event, field by field. *)
Lemma step_state {M : JSMath} (s : State) (e : Event) :
  step s e =
  match e with
  | Move event =>
      {| context := {| ctx_coordinates := event_coordinates event;
                       ctx_selectedLocation := selectedLocation s |};
         mapRef := mapRef s; loading := loading s;
         zoom := vs_zoom (viewState event); mapStyle := mapStyle s;
         lastWeatherCoordinates :=
           match lastWeatherCoordinates s with
           | Some last =>
               if exceeds_threshold (event_coordinates event) last
               then Some (event_coordinates event)
               else Some last
           | None => Some (event_coordinates event)
           end |}
  | Load =>
      {| context := context s; mapRef := mapRef s; loading := false;
         zoom := zoom s; mapStyle := mapStyle s;
         lastWeatherCoordinates := lastWeatherCoordinates s |}
  | RefCallback (Some m) =>
      {| context := context s; mapRef := Some m; loading := loading s;
         zoom := zoom s; mapStyle := mapStyle s;
         lastWeatherCoordinates := lastWeatherCoordinates s |}
  | RefCallback None => s
  | MarkerClick =>
      {| context := {| ctx_coordinates := coordinates s;
                       ctx_selectedLocation := None |};
         mapRef := mapRef s; loading := loading s;
         zoom := zoom s; mapStyle := mapStyle s;
         lastWeatherCoordinates := lastWeatherCoordinates s |}
  | ToggleStyle =>
      {| context := context s; mapRef := mapRef s; loading := loading s;
         zoom := zoom s; mapStyle := toggleMapStyle (mapStyle s);
         lastWeatherCoordinates := lastWeatherCoordinates s |}
  | SelectLocation lon lat =>
      {| context :=
           {| ctx_coordinates := {| longitude := lon; latitude := lat |};
              ctx_selectedLocation :=
                Some {| longitude := lon; latitude := lat |} |};
         mapRef := mapRef s; loading := loading s;
         zoom := 14; mapStyle := mapStyle s;
         lastWeatherCoordinates :=
           Some {| longitude := lon; latitude := lat |} |}
  | CurrentLocation c =>
      {| context := {| ctx_coordinates := c;
                       ctx_selectedLocation := Some c |};
         mapRef := mapRef s; loading := loading s;
         zoom := zoom s; mapStyle := mapStyle s;
         lastWeatherCoordinates := Some c |}
  | KeyDown k =>
      if is_ctrl_q k then
        {| context := {| ctx_coordinates := default_coordinates;
                         ctx_selectedLocation := None |};
           mapRef := mapRef s; loading := loading s;
           zoom := 2; mapStyle := mapStyle s;
           lastWeatherCoordinates := None |}
      else s
  end.
Proof.
  unfold step.
  destruct e as [event | | node | | | lon lat | c | k]; cbn [handler].
  - destruct (lastWeatherCoordinates s) as [last |] eqn:Hlw.
    + rewrite (handleMove_next s event last Hlw).
      destruct (exceeds_threshold (event_coordinates event) last);
        cbn; rewrite ?Hlw; reflexivity.
    + rewrite (handleMove_first s event Hlw). reflexivity.
  - reflexivity.
  - destruct node; reflexivity.
  - reflexivity.
  - reflexivity.
  - unfold handleSelectLocation, updateCoordinates.
    destruct (mapRef s) eqn:Href; cbn; rewrite ?Href; reflexivity.
  - unfold updateCoordinates.
    destruct (mapRef s) eqn:Href; cbn; rewrite ?Href; reflexivity.
  - unfold handleKeyPress. destruct (is_ctrl_q k).
    + destruct (mapRef s) eqn:Href; cbn; rewrite ?Href; reflexivity.
    + reflexivity.
Qed.

(** ** Search selection and current location *)

(** X1. A search selection, from any state, puts the coordinates, the
    marker and the weather coordinate on the selected place and the zoom at
    14, so the marker and the weather panel are both rendered there. *)
Theorem select_location_shows_weather {M : JSMath}
        (s : State) (lon lat : JS.number) (theme : option string) :
  let place := {| longitude := lon; latitude := lat |} in
  let s' := step s (SelectLocation lon lat) in
  coordinates s' = place /\
  zoom s' = 14 /\
  view_marker (render theme s') = Some place /\
  weatherDisplay (render theme s') = Some place /\
  coordinatesDisplay (render theme s') = (lon, lat, 14).
Proof.
  cbv zeta. rewrite step_state. repeat split.
Qed.

(** X2. A current-location update puts the coordinates, the selected
    location and the weather coordinate on the new place, whatever the zoom,
    and leaves the zoom state alone: the marker is rendered there, and the
    weather panel is rendered there only if the zoom was already at least
    14. *)
Theorem current_location_keeps_zoom {M : JSMath}
        (s : State) (c : Coordinates) (theme : option string) :
  let s' := step s (CurrentLocation c) in
  coordinates s' = c /\
  selectedLocation s' = Some c /\
  lastWeatherCoordinates s' = Some c /\
  zoom s' = zoom s /\
  view_marker (render theme s') = Some c /\
  weatherDisplay (render theme s')
  = (if JS.ge (zoom s) 14 then Some c else None).
Proof.
  cbv zeta. rewrite step_state. repeat split.
Qed.

(** ** Requests made of the map *)

(** Membership in a list of calls, one call at a time. *)
Ltac calls_cases H :=
  repeat rewrite in_app_iff in H;
  cbn [In] in H;
  repeat match type of H with
         | _ \/ _ => destruct H as [H | H]
         | False => destruct H
         | _ = FlyTo _ _ => discriminate H
         | _ = PreventDefault => discriminate H
         end.

Lemma is_ctrl_q_true (k : KeyboardEvent) :
  is_ctrl_q k = true <-> ctrlKey k = true /\ key k = "q".
Proof.
  unfold is_ctrl_q. rewrite andb_true_iff, String.eqb_eq. reflexivity.
Qed.

(** X3. The flights requested of the map, for every event and state: a
    handler calls [flyTo] on [m] with [o] exactly when [m] is the map the
    reference holds and either the event is the reset shortcut and [o] is
    the default view, or the event is a current-location update or a search
    selection and [o] is the flight to that place (zoom 16, pitch 60,
    bearing -20), which is then the selected location.  So nothing is
    requested while the reference is unset, and moves, load, ref-callback,
    marker-click, toggle and other keys request nothing. *)
Theorem flyTo_only_current_map {M : JSMath}
        (s : State) (e : Event) (m : MapRef) (o : FlyToOptions) :
  In (FlyTo m o) (handler s e) <->
  mapRef s = Some m /\
  ((exists k,
      e = KeyDown k /\ ctrlKey k = true /\ key k = "q" /\
      o = default_flyTo) \/
   (exists c,
      (e = CurrentLocation c \/
       e = SelectLocation (longitude c) (latitude c)) /\
      o = location_flyTo c /\
      selectedLocation (step s e) = Some c)).
Proof.
  assert (Hopt : forall o', In (FlyTo m o) (flyTo_opt (mapRef s) o') ->
                            mapRef s = Some m /\ o = o').
  { intros o' Ho'. destruct (mapRef s) as [m' |]; cbn in Ho'.
    - destruct Ho' as [[= -> ->] | []]. split; reflexivity.
    - destruct Ho'. }
  split.
  - intros Hin.
    destruct e as [event | | node | | | lon lat | c | k];
      cbn [handler] in Hin.
    + destruct (handleMove_shape s event) as (tail & Hcalls & Htail).
      rewrite Hcalls in Hin.
      destruct Htail as [-> | ->]; calls_cases Hin.
    + unfold onLoad in Hin. calls_cases Hin.
    + destruct node; cbn [measuredRef] in Hin; calls_cases Hin.
    + unfold onMarkerClick in Hin. calls_cases Hin.
    + unfold onToggle in Hin. calls_cases Hin.
    + unfold handleSelectLocation, updateCoordinates in Hin.
      calls_cases Hin.
      destruct (Hopt _ Hin) as [Href ->]. split; [exact Href |].
      right. exists {| longitude := lon; latitude := lat |}.
      split; [right; reflexivity | split; [reflexivity |]].
      rewrite step_state. reflexivity.
    + unfold updateCoordinates in Hin. calls_cases Hin.
      destruct (Hopt _ Hin) as [Href ->]. split; [exact Href |].
      right. exists c.
      split; [left; reflexivity | split; [reflexivity |]].
      rewrite step_state. reflexivity.
    + unfold handleKeyPress in Hin.
      destruct (is_ctrl_q k) eqn:Hq; [| destruct Hin].
      calls_cases Hin.
      destruct (Hopt _ Hin) as [Href ->]. split; [exact Href |].
      apply is_ctrl_q_true in Hq. destruct Hq as [Hctrl Hkey].
      left. exists k. auto.
  - intros (Href & [(k & -> & Hctrl & Hkey & ->)
                   | (c & [-> | ->] & -> & _)]).
    + assert (Hq : is_ctrl_q k = true)
        by (apply is_ctrl_q_true; split; assumption).
      cbn [handler]. unfold handleKeyPress. rewrite Hq, Href.
      right. left. reflexivity.
    + cbn [handler]. unfold updateCoordinates. rewrite Href.
      right. left. reflexivity.
    + cbn [handler]. unfold handleSelectLocation, updateCoordinates.
      rewrite Href. right. right. left. reflexivity.
Qed.

(** ** The loading overlay and the map reference along a trace *)

Lemma loading_run_events {M : JSMath} (es : list Event) (s : State) :
  loading (run_events es s) = loading s && negb (existsb is_load es).
Proof.
  revert s.
  induction es as [| e es IH]; intros s.
  - cbn. rewrite andb_true_r. reflexivity.
  - cbn [run_events fold_left existsb].
    change (fold_left step es (step s e)) with (run_events es (step s e)).
    rewrite IH, step_state.
    destruct e as [event | | [m |] | | | lon lat | c | k]; cbn;
      try reflexivity.
    + symmetry. apply andb_false_r.
    + destruct (is_ctrl_q k); reflexivity.
Qed.

(** X4. The loading overlay is rendered exactly until the map's first load
    event: after any sequence of events from the first render the overlay is
    shown iff no load event has occurred. *)
Theorem loading_until_load {M : JSMath}
        (ctx : CoordinatesContext) (es : list Event) (theme : option string) :
  view_loadingOverlay (render theme (run_events es (initial_state ctx)))
  = negb (existsb is_load es).
Proof.
  unfold render; cbn [view_loadingOverlay].
  rewrite loading_run_events. reflexivity.
Qed.

Lemma mapRef_run_events {M : JSMath} (es : list Event) (s : State) :
  mapRef (run_events es s) = last_mounted es (mapRef s).
Proof.
  revert s.
  induction es as [| e es IH]; intros s.
  - reflexivity.
  - cbn [run_events fold_left last_mounted].
    change (fold_left step es (step s e)) with (run_events es (step s e)).
    rewrite IH. unfold last_mounted. f_equal.
    rewrite step_state.
    destruct e as [event | | [m |] | | | lon lat | c | k]; cbn;
      try reflexivity.
    destruct (is_ctrl_q k); reflexivity.
Qed.

Lemma last_mounted_some (es : list Event) (m : MapRef) :
  exists m', last_mounted es (Some m) = Some m'.
Proof.
  revert m.
  induction es as [| e es IH]; intros m.
  - exists m. reflexivity.
  - destruct e as [event | | [m1 |] | | | lon lat | c | k]; apply IH.
Qed.

(** X5. The map reference is the last non-null node the ref callback was
    given: a null node is ignored, no other event writes the reference, and
    once set it is never cleared. *)
Theorem mapRef_never_cleared {M : JSMath}
        (s : State) (es : list Event) (m : MapRef) :
  mapRef s = Some m ->
  step s (RefCallback None) = s /\
  mapRef (run_events es s) = last_mounted es (Some m) /\
  exists m', mapRef (run_events es s) = Some m'.
Proof.
  intros Href.
  split; [reflexivity |].
  rewrite mapRef_run_events, Href.
  split; [reflexivity | apply last_mounted_some].
Qed.

(** ** The keyboard *)

(** X6. A key press that is not Ctrl with a lower-case q makes no call at
    all: the default action is not prevented and the state is untouched. *)
Theorem other_keys_do_nothing {M : JSMath} (s : State) (k : KeyboardEvent) :
  ctrlKey k = false \/ key k <> "q" ->
  handleKeyPress s k = [] /\ step s (KeyDown k) = s.
Proof.
  intros Hother.
  assert (Hno : is_ctrl_q k = false).
  { unfold is_ctrl_q.
    destruct Hother as [-> | Hkey]; [reflexivity |].
    apply String.eqb_neq in Hkey. rewrite Hkey. apply andb_false_r. }
  unfold step, handler, handleKeyPress. rewrite Hno.
  split; reflexivity.
Qed.

(** X7. Once a weather coordinate is held, the reset shortcut is the only
    event after which it is null. *)
Theorem only_reset_clears_weather {M : JSMath}
        (s : State) (e : Event) (last : Coordinates) :
  lastWeatherCoordinates s = Some last ->
  (lastWeatherCoordinates (step s e) = None <->
   exists k, e = KeyDown k /\ ctrlKey k = true /\ key k = "q").
Proof.
  intros Hlast.
  rewrite weather_after_event, Hlast.
  split.
  - destruct e as [event | | node | | | lon lat | c | k]; try discriminate.
    + destruct (exceeds_threshold (event_coordinates event) last);
        discriminate.
    + destruct (ctrlKey k && String.eqb (key k) "q") eqn:Hq;
        [| discriminate].
      intros _. apply andb_true_iff in Hq. destruct Hq as [Hctrl Hkey].
      apply String.eqb_eq in Hkey.
      exists k. auto.
  - intros (k & -> & Hctrl & Hkey).
    rewrite Hctrl, Hkey. reflexivity.
Qed.

(** X12. Right after the reset shortcut the weather panel and the marker
    are gone whatever the zoom was, and the next move, however small, seeds
    the weather coordinate again. *)
Theorem reset_then_move_reseeds {M : JSMath}
        (s : State) (k : KeyboardEvent) (event : MoveEvent)
        (theme : option string) :
  ctrlKey k = true ->
  key k = "q" ->
  weatherDisplay (render theme (step s (KeyDown k))) = None /\
  view_marker (render theme (step s (KeyDown k))) = None /\
  lastWeatherCoordinates (step (step s (KeyDown k)) (Move event))
  = Some (event_coordinates event).
Proof.
  intros Hctrl Hkey.
  assert (Hq : is_ctrl_q k = true)
    by (unfold is_ctrl_q; rewrite Hctrl, Hkey; reflexivity).
  rewrite (step_state (step s (KeyDown k)) (Move event)).
  rewrite (step_state s (KeyDown k)), Hq.
  repeat split.
Qed.

(** ** Events that repeat or do not move the view *)

(** X8. Every event other than the style toggle is idempotent: handling it
    a second time right away leaves the state as the first handling left
    it. *)
Theorem step_idempotent {M : JSMath} (s : State) (e : Event) :
  e <> ToggleStyle ->
  step (step s e) e = step s e.
Proof.
  intros Hnot.
  rewrite (step_state (step s e) e), (step_state s e).
  destruct e as [event | | [m |] | | | lon lat | c | k];
    try reflexivity.
  - cbn [lastWeatherCoordinates selectedLocation coordinates context
         ctx_coordinates ctx_selectedLocation mapRef loading zoom mapStyle].
    destruct (lastWeatherCoordinates s) as [last |].
    + destruct (exceeds_threshold (event_coordinates event) last) eqn:Hfar.
      * destruct (exceeds_threshold (event_coordinates event)
                                    (event_coordinates event)); reflexivity.
      * rewrite Hfar. reflexivity.
    + destruct (exceeds_threshold (event_coordinates event)
                                  (event_coordinates event)); reflexivity.
  - contradiction Hnot. reflexivity.
  - destruct (is_ctrl_q k); reflexivity.
Qed.

(** X11. Load, ref-callback, marker-click and style-toggle events and key
    presses other than the shortcut change neither the displayed
    coordinates and zoom nor what the weather panel shows. *)
Theorem position_kept {M : JSMath}
        (s : State) (e : Event) (theme : option string) :
  keeps_position e = true ->
  coordinatesDisplay (render theme (step s e))
  = coordinatesDisplay (render theme s) /\
  weatherDisplay (render theme (step s e)) = weatherDisplay (render theme s).
Proof.
  intros Hkeeps.
  rewrite step_state.
  destruct e as [event | | [m |] | | | lon lat | c | k];
    try discriminate Hkeeps; try (split; reflexivity).
  cbn in Hkeeps. apply negb_true_iff in Hkeeps. rewrite Hkeeps.
  split; reflexivity.
Qed.

(** ** The style along a trace *)

Lemma toggleMapStyle_twice (style : string) :
  style = "STREETS" \/ style = "SATELLITE" ->
  toggleMapStyle (toggleMapStyle style) = style.
Proof. intros [-> | ->]; reflexivity. Qed.

Lemma mapStyle_run_events {M : JSMath} (es : list Event) (s : State) :
  mapStyle s = "STREETS" \/ mapStyle s = "SATELLITE" ->
  mapStyle (run_events es s) =
  if Nat.even (List.length (filter is_toggle es))
  then mapStyle s
  else toggleMapStyle (mapStyle s).
Proof.
  revert s.
  induction es as [| e es IH]; intros s Hs.
  - reflexivity.
  - cbn [run_events fold_left].
    change (fold_left step es (step s e)) with (run_events es (step s e)).
    assert (Hs' : mapStyle (step s e) = "STREETS" \/
                  mapStyle (step s e) = "SATELLITE").
    { rewrite mapStyle_after_event.
      destruct e; try exact Hs. apply toggleMapStyle_range. }
    rewrite (IH _ Hs'), mapStyle_after_event.
    destruct e; cbn [filter is_toggle]; try reflexivity.
    cbn [List.length]. rewrite Nat.even_succ, <- Nat.negb_even.
    rewrite (toggleMapStyle_twice _ Hs).
    destruct (Nat.even (List.length (filter is_toggle es))); reflexivity.
Qed.

(** X9. After any sequence of events from the first render the style is
    STREETS when the number of toggles is even and SATELLITE when it is
    odd; no other event has a say. *)
Theorem mapStyle_parity {M : JSMath}
        (ctx : CoordinatesContext) (es : list Event) :
  mapStyle (run_events es (initial_state ctx)) =
  if Nat.even (List.length (filter is_toggle es)) then "STREETS" else "SATELLITE".
Proof.
  rewrite mapStyle_run_events; [reflexivity | left; reflexivity].
Qed.

(** X10. In every state reached from the first render the map is given a
    style URL: the satellite style whatever the theme, and for STREETS the
    dark style under the dark theme and the light one under any other
    theme, an unresolved one included; the 3D-buildings layer is rendered
    exactly with the two STREETS styles. *)
Theorem render_style_url {M : JSMath}
        (ctx : CoordinatesContext) (es : list Event) (theme : option string) :
  let v := render theme (run_events es (initial_state ctx)) in
  view_mapStyle v =
  Some (if view_buildingsLayer v
        then if is_dark theme
             then "mapbox://styles/mapbox/dark-v11"
             else "mapbox://styles/mapbox/streets-v12"
        else "mapbox://styles/mapbox/satellite-streets-v12").
Proof.
  cbv zeta. unfold render; cbn [view_mapStyle view_buildingsLayer].
  destruct (mapStyle_reachable ctx es) as [-> | ->]; cbn.
  - destruct theme as [t |]; cbn; [destruct (String.eqb t "dark") |];
      reflexivity.
  - destruct theme as [t |]; cbn; [destruct (String.eqb t "dark") |];
      reflexivity.
Qed.

(** ** The weather panel after a move *)

(** X13. A move always leaves a weather coordinate behind, so after a move
    the weather panel is rendered exactly when the event's zoom is at least
    14 (a NaN zoom hides it). *)
Theorem weather_panel_after_move {M : JSMath}
        (s : State) (event : MoveEvent) (theme : option string) :
  lastWeatherCoordinates (step s (Move event)) <> None /\
  (weatherDisplay (render theme (step s (Move event))) <> None <->
   JS.ge (vs_zoom (viewState event)) 14 = true).
Proof.
  assert (Hset : lastWeatherCoordinates (step s (Move event)) <> None).
  { rewrite weather_after_event.
    destruct (lastWeatherCoordinates s) as [last |]; [| discriminate].
    destruct (exceeds_threshold (event_coordinates event) last);
      discriminate. }
  split; [exact Hset |].
  change (weatherDisplay (render theme (step s (Move event))))
    with (if JS.ge (zoom (step s (Move event))) 14
          then lastWeatherCoordinates (step s (Move event)) else None).
  replace (zoom (step s (Move event))) with (vs_zoom (viewState event))
    by (rewrite step_state; reflexivity).
  destruct (JS.ge (vs_zoom (viewState event)) 14).
  - split; [reflexivity | intros _; exact Hset].
  - split; [intros Hshown; contradiction Hshown; reflexivity | discriminate].
Qed.

(** ** The other handlers at concrete inputs *)

(** Witness of X3: the shortcut on a mounted map. *)
Lemma flyTo_only_current_map_witness :
  In (FlyTo (MapHandle 0) default_flyTo)
     (handler (M := ProductMath) at_origin (KeyDown ctrl_q)) /\
  mapRef at_origin = Some (MapHandle 0).
Proof.
  assert (Hin : In (FlyTo (MapHandle 0) default_flyTo)
                   (handler (M := ProductMath) at_origin (KeyDown ctrl_q)))
    by (right; left; reflexivity).
  split.
  - exact Hin.
  - exact (proj1 (proj1 (@flyTo_only_current_map ProductMath at_origin
                           (KeyDown ctrl_q) (MapHandle 0) default_flyTo)
                    Hin)).
Defined.

(** Witness of X5: an unmount followed by a remount. *)
Lemma mapRef_never_cleared_witness :
  mapRef at_origin = Some (MapHandle 0) /\
  mapRef (run_events (M := ProductMath)
            [RefCallback None; RefCallback (Some (MapHandle 1));
             RefCallback None]
            at_origin)
  = Some (MapHandle 1).
Proof.
  split.
  - reflexivity.
  - exact (proj1 (proj2 (@mapRef_never_cleared ProductMath at_origin
                           [RefCallback None; RefCallback (Some (MapHandle 1));
                            RefCallback None]
                           (MapHandle 0) eq_refl))).
Defined.

(** Witness of X6: Ctrl+Shift+Q is not the shortcut. *)
Lemma other_keys_do_nothing_witness :
  (ctrlKey ctrl_shift_q = false \/ key ctrl_shift_q <> "q") /\
  step (M := ProductMath) at_origin (KeyDown ctrl_shift_q) = at_origin.
Proof.
  assert (Hother : ctrlKey ctrl_shift_q = false \/ key ctrl_shift_q <> "q")
    by (right; discriminate).
  split.
  - exact Hother.
  - exact (proj2 (@other_keys_do_nothing ProductMath at_origin
                    ctrl_shift_q Hother)).
Defined.

(** Witness of X7: the shortcut clears the weather coordinate [origin]. *)
Lemma only_reset_clears_weather_witness :
  lastWeatherCoordinates at_origin = Some origin /\
  exists k, KeyDown ctrl_q = KeyDown k /\ ctrlKey k = true /\ key k = "q".
Proof.
  split.
  - reflexivity.
  - apply (@only_reset_clears_weather ProductMath at_origin
             (KeyDown ctrl_q) origin).
    + reflexivity.
    + reflexivity.
Defined.

(** Witness of X8: a move past the threshold, handled twice. *)
Lemma step_idempotent_witness :
  Move (move_to faraway 15) <> ToggleStyle /\
  step (M := ProductMath)
       (step (M := ProductMath) at_origin (Move (move_to faraway 15)))
       (Move (move_to faraway 15))
  = step (M := ProductMath) at_origin (Move (move_to faraway 15)).
Proof.
  assert (Hnot : Move (move_to faraway 15) <> ToggleStyle) by discriminate.
  split.
  - exact Hnot.
  - exact (@step_idempotent ProductMath at_origin
             (Move (move_to faraway 15)) Hnot).
Defined.

(** Witness of X11: a style toggle while the panel lags the viewport. *)
Lemma position_kept_witness :
  keeps_position ToggleStyle = true /\
  weatherDisplay
    (render None (step (M := ProductMath) after_small_pan ToggleStyle))
  = weatherDisplay (render None after_small_pan).
Proof.
  split.
  - reflexivity.
  - exact (proj2 (@position_kept ProductMath after_small_pan ToggleStyle
                    None eq_refl)).
Defined.

(** Witness of X12: the shortcut, then a pan of 2^-7 degrees. *)
Lemma reset_then_move_reseeds_witness :
  ctrlKey ctrl_q = true /\ key ctrl_q = "q" /\
  lastWeatherCoordinates
    (step (M := ProductMath)
          (step (M := ProductMath) at_origin (KeyDown ctrl_q))
          (Move (move_to nearby 15)))
  = Some nearby.
Proof.
  split; [reflexivity | split; [reflexivity |]].
  exact (proj2 (proj2 (@reset_then_move_reseeds ProductMath at_origin ctrl_q
                         (move_to nearby 15) None eq_refl eq_refl))).
Defined.

(** The toggle is the one event that is not idempotent. *)
Example toggle_not_idempotent :
  mapStyle (step (M := ProductMath)
                 (step (M := ProductMath) at_origin ToggleStyle) ToggleStyle)
  = "STREETS" /\
  mapStyle (step (M := ProductMath) at_origin ToggleStyle) = "SATELLITE".
Proof. split; reflexivity. Qed.

(** A current-location update at zoom 2 shows the marker but no weather. *)
Example current_location_zoomed_out :
  weatherDisplay
    (render None
       (step (M := ProductMath)
             (step (M := ProductMath) at_origin (KeyDown ctrl_q))
             (CurrentLocation faraway)))
  = None.
Proof. reflexivity. Qed.
